(** * test_regress/t/t_covergroup_coverpoints_unsup.py

    A shallow embedding of the regression-test descriptor and of its
    execution against the test driver's [test] object.

    The descriptor is a straight-line Python script with one two-way
    branch.  Everything it does, it does through the [test] object: it
    reads two attributes ([vlt_all], [golden_filename]) and calls five
    methods ([scenarios], [lint], [compile], [execute], [passes]) whose
    return values it discards.  A method of the driver either returns
    or raises; a raised exception is not caught by the script, so it
    ends the script at that line.  (Line 10 imports the bootstrap
    module that provides [test]; it makes no request.)

    The script is embedded as a term of a small command monad
    ([script]); [run] executes such a term against an arbitrary driver
    ([harness]), threading the driver's private state, recording every
    action the script performs, and stopping at the first call that
    raises. *)

From Stdlib Require Import Ascii.
From stdpp Require Import base option strings list gmap.

Local Open Scope string_scope.

(** ** What the script can ask of the [test] object *)

(** The keyword arguments of a [test.compile] call: a Python dict
    from keyword name to a list of command-line words. *)
Abbreviation kwargs := (gmap string (list string)).

(** A method call on [test], with its evaluated arguments.
    [Scenarios tags] is [test.scenarios] applied to the tags,
    [Lint fails expect_filename] is [test.lint] with its two keyword
    arguments, [Compile kw] is [test.compile] with the keyword
    arguments [kw]. *)
Inductive request : Type :=
| Scenarios (tags : list string)
| Lint (fails : bool) (expect_filename : string)
| Compile (kw : kwargs)
| Execute
| Passes.

Global Instance request_eq_dec : EqDecision request.
Proof. solve_decision. Defined.

(** The attributes of [test] that the script touches. *)
Inductive attr : Type := vlt_all | golden_filename.

Global Instance attr_eq_dec : EqDecision attr.
Proof. solve_decision. Defined.

(** Scripts: the commands of a test descriptor, in continuation
    style.  [SetFlag] is the assignment [test.vlt_all = b]; the
    descriptor never uses it, it is part of the language so that
    "the script does not assign the flag" is a property of the script
    and not of the language. *)
Inductive script (A : Type) : Type :=
| Ret (a : A)
| GetFlag (k : bool → script A)
| GetGolden (k : string → script A)
| SetFlag (b : bool) (k : script A)
| Call (r : request) (k : script A).

Arguments Ret {A} a.
Arguments GetFlag {A} k.
Arguments GetGolden {A} k.
Arguments SetFlag {A} b k.
Arguments Call {A} r k.

Fixpoint script_bind {A B} (f : A → script B) (p : script A) : script B :=
  match p with
  | Ret a => f a
  | GetFlag k => GetFlag (λ b, script_bind f (k b))
  | GetGolden k => GetGolden (λ g, script_bind f (k g))
  | SetFlag b k => SetFlag b (script_bind f k)
  | Call r k => Call r (script_bind f k)
  end.

Global Instance script_ret : MRet script := @Ret.
Global Instance script_mbind : MBind script := @script_bind.

(** The members of the [test] object, as the script writes them. *)
Module test.
Definition vlt_all : script bool := GetFlag Ret.
Definition golden_filename : script string := GetGolden Ret.
Definition scenarios (tags : list string) : script unit :=
  Call (Scenarios tags) (Ret ()).
Definition lint (fails : bool) (expect_filename : string) : script unit :=
  Call (Lint fails expect_filename) (Ret ()).
Definition compile (kw : kwargs) : script unit :=
  Call (Compile kw) (Ret ()).
Definition execute : script unit := Call Execute (Ret ()).
Definition passes : script unit := Call Passes (Ret ()).
End test.

(** ** The descriptor (lines 12-20 of the source) *)

Definition t_covergroup_coverpoints_unsup : script unit :=
  test.scenarios ["simulator"];;
  (b ← test.vlt_all;
   if b : bool then
     g ← test.golden_filename;
     test.lint true g
   else
     test.compile {[ "nc_flags2" := ["-coverage"; "functional"] ]};;
     test.execute);;
  test.passes.

(** ** Running a script against a driver *)

(** The part of the [test] object the script can read (and, in
    principle, assign). *)
Record config : Type := Config {
  cfg_vlt_all : bool;
  cfg_golden_filename : string;
}.

(** What the script did, in program order. *)
Inductive event : Type :=
| EvGet (a : attr)
| EvSet (a : attr)
| EvCall (r : request).

Global Instance event_eq_dec : EqDecision event.
Proof. solve_decision. Defined.

(** How the script ended: it ran to its last line, or the call [at]
    raised [e]. *)
Inductive outcome (E : Type) : Type :=
| Done
| Raised (at_call : request) (e : E).

Arguments Done {E}.
Arguments Raised {E} at_call e.

(** A driver: private state [S], exceptions [E], and what each method
    does to the state.  [(None, s')] is a normal return, [(Some e, s')]
    raises [e] and leaves the driver in [s']. *)
Record harness (S E : Type) : Type := Harness {
  on_call : request → S → option E * S;
}.

Arguments Harness {S E} on_call.
Arguments on_call {S E} h r s.

Record result (S E : Type) : Type := Result {
  trace : list event;
  final_cfg : config;
  final_state : S;
  out : outcome E;
}.

Arguments Result {S E} trace final_cfg final_state out.
Arguments trace {S E} r.
Arguments final_cfg {S E} r.
Arguments final_state {S E} r.
Arguments out {S E} r.

Definition logged {S E} (ev : event) (r : result S E) : result S E :=
  Result (ev :: trace r) (final_cfg r) (final_state r) (out r).

Fixpoint run {S E A} (h : harness S E) (p : script A) (c : config) (s : S)
  : result S E :=
  match p with
  | Ret _ => Result [] c s Done
  | GetFlag k => logged (EvGet vlt_all) (run h (k (cfg_vlt_all c)) c s)
  | GetGolden k =>
      logged (EvGet golden_filename) (run h (k (cfg_golden_filename c)) c s)
  | SetFlag b k =>
      logged (EvSet vlt_all) (run h k (Config b (cfg_golden_filename c)) s)
  | Call r k =>
      match on_call h r s with
      | (Some e, s') => Result [EvCall r] c s' (Raised r e)
      | (None, s') => logged (EvCall r) (run h k c s')
      end
  end.

(** The method calls of a trace, in order. *)
Definition calls (t : list event) : list request :=
  omap (λ ev, match ev with EvCall r => Some r | _ => None end) t.

Definition is_lint (r : request) : bool :=
  match r with Lint _ _ => true | _ => false end.
Definition is_compile (r : request) : bool :=
  match r with Compile _ => true | _ => false end.
Definition is_execute (r : request) : bool :=
  match r with Execute => true | _ => false end.
Definition is_passes (r : request) : bool :=
  match r with Passes => true | _ => false end.

Definition count (f : request → bool) (t : list event) : nat :=
  length (List.filter f (calls t)).

(** A branch of the [if] on line 14 has executed when one of its own
    actions is in the trace: for the lint branch (line 15) the read of
    [test.golden_filename] or the [lint] call, for the other branch
    (lines 17-18) the [compile] or the [execute] call. *)
Definition in_lint_branch (ev : event) : bool :=
  match ev with
  | EvGet golden_filename | EvCall (Lint _ _) => true
  | _ => false
  end.
Definition in_compile_branch (ev : event) : bool :=
  match ev with
  | EvCall (Compile _) | EvCall Execute => true
  | _ => false
  end.
Definition lint_branch_ran (t : list event) : bool := existsb in_lint_branch t.
Definition compile_branch_ran (t : list event) : bool :=
  existsb in_compile_branch t.

(** The call [r] returns (does not raise) when the driver is in [s]. *)
Definition returns {S E} (h : harness S E) (r : request) (s : S) : Prop :=
  (on_call h r s).1 = None.

(** A run is aborted when a call other than the closing [passes()]
    raises: the script stops before its last line. *)
Definition aborted {E} (o : outcome E) : bool :=
  match o with
  | Done => false
  | Raised r _ => negb (is_passes r)
  end.

(** A driver whose methods all return and do nothing: the script's
    requests can be read off its trace. *)
Definition recording : harness unit Empty_set :=
  Harness (λ _ s, (None, s)).

(** ** The driver's side, as far as the specification fixes it

    The driver (the class behind [test], reached through
    [vltest_bootstrap]) lives outside this file.  The definitions of
    this section follow the specification's description of it. *)

Fixpoint has_slash (s : string) : bool :=
  match s with
  | EmptyString => false
  | String c s' => bool_decide (c = "/"%char) || has_slash s'
  end.

(** The last component of a path. *)
Fixpoint basename (s : string) : string :=
  match s with
  | EmptyString => EmptyString
  | String c s' =>
      if has_slash s' then basename s'
      else if bool_decide (c = "/"%char) then s' else String c s'
  end.

(** [strip_suffix suf s] is [Some p] when [s = p +:+ suf]. *)
Definition strip_suffix (suf s : string) : option string :=
  let n := (String.length s - String.length suf)%nat in
  if bool_decide (String.length suf ≤ String.length s)%nat
     && String.eqb (String.substring n (String.length suf) s) suf
  then Some (String.substring 0 n s) else None.

(** Modelled from the spec: the derivation of [test.golden_filename],
    which the driver computes.  The specification describes it as the
    test file's own name with its reference-output suffix, and gives
    the value for this file; the suffix is [.out], replacing [.py]. *)
Definition golden_filename_of (py_filename : string) : string :=
  let name := basename py_filename in
  default name (strip_suffix ".py" name) +:+ ".out".

(** This descriptor's place in the repository. *)
Definition py_filename : string :=
  "test_regress/t/t_covergroup_coverpoints_unsup.py".

(** The attributes the driver hands to this descriptor when the mode
    flag is [flag]. *)
Definition harness_config (flag : bool) : config :=
  Config flag (golden_filename_of py_filename).

(** Modelled from the spec: how the driver reads the keyword arguments
    of [compile].  The specification gives the interface as
    [compile(<backend>_flags2: sequence_of_string)]: the keyword
    [<backend>_flags2] carries the extra flags of the backend
    [<backend>]. *)
Definition backend_of_keyword (k : string) : option string :=
  strip_suffix "_flags2" k.

(** The flag map of a [compile] request: backend name to extra
    flags. *)
Definition flag_map (kw : kwargs) : gmap string (list string) :=
  list_to_map
    (omap (λ '(k, v), (λ b, (b, v)) <$> backend_of_keyword k) (map_to_list kw)).

(** The extra flags the request carries for [backend]: those under its
    name in the flag map, none when it is not named. *)
Definition extra_flags (backend : string) (kw : kwargs) : list string :=
  default [] (flag_map kw !! backend).

(** Modelled from the spec: the driver's pass bookkeeping.  [passes()]
    "signals that, provided no prior step reported failure, this test
    case should be recorded as passed"; without the call the case is
    not recorded as passed. *)
Definition recorded_as_passed {S E} (r : result S E) : bool :=
  bool_decide (Passes ∈ calls (trace r)) && negb (aborted (out r)).

(** The driver's methods, as the contract of the test-case descriptor
    states them.  The environment [env] holds what a run of the driver
    observes of the outside world. *)
Module Spec.

(** The error taxonomy of the specification. *)
Inductive failure : Type :=
| ConfigurationError
| CompileError
| RuntimeError
| TestFailure.

Global Instance failure_eq_dec : EqDecision failure.
Proof. solve_decision. Defined.

Record env : Type := Env {
  mode_flag : bool;             (* the injected [vlt_all] *)
  recognised : list string;     (* scenario tags the driver accepts *)
  reference : string → string;  (* content of a golden reference, by name *)
  lint_exit_ok : bool;          (* the lint step exited successfully *)
  lint_output : string;         (* the lint step's captured text *)
  compile_ok : bool;            (* the compile step succeeded *)
  execute_exit_ok : bool;       (* the compiled artifact exited with zero *)
}.

Record state : Type := State {
  applicable : list string;     (* scenarios registered for the case *)
  expected_to_fail : bool;      (* the case is marked expected-to-fail *)
}.

Definition init : state := State [] false.

(** Modelled from the spec: the methods of the driver behind [test].
    - [scenarios]: registers the tags; fails only when a tag is not
      recognised (ConfigurationError).
    - [lint]: fails the step (TestFailure) when the polarity of the
      observed outcome does not match [fails], or when the output
      differs from the golden reference.
    - [compile]: a failure to compile is a CompileError.
    - [execute]: a non-zero exit is a RuntimeError, unless the case
      is already marked expected-to-fail.
    - [passes]: terminal; nothing to run. *)
Definition step (e : env) (r : request) (s : state) : option failure * state :=
  match r with
  | Scenarios tags =>
      if forallb (λ t, bool_decide (t ∈ recognised e)) tags
      then (None, State tags (expected_to_fail s))
      else (Some ConfigurationError, s)
  | Lint fails expect_filename =>
      if Bool.eqb (negb (lint_exit_ok e)) fails
         && String.eqb (lint_output e) (reference e expect_filename)
      then (None, s)
      else (Some TestFailure, s)
  | Compile _ =>
      if compile_ok e then (None, s) else (Some CompileError, s)
  | Execute =>
      if execute_exit_ok e || expected_to_fail s then (None, s)
      else (Some RuntimeError, s)
  | Passes => (None, s)
  end.

Definition driver (e : env) : harness state failure := Harness (step e).

(** One run of this descriptor by the driver in environment [e]. *)
Definition exec (e : env) : result state failure :=
  run (driver e) t_covergroup_coverpoints_unsup
      (harness_config (mode_flag e)) init.

End Spec.

(** ** The shape of a run of the descriptor *)

Definition the_scenarios : request := Scenarios ["simulator"].
Definition the_compile : request :=
  Compile {[ "nc_flags2" := ["-coverage"; "functional"] ]}.

Section Steps.
Context {S E : Type} (h : harness S E).

(** The closing [passes()], called in driver state [s]. *)
Definition closing (c : config) (s : S) : result S E :=
  match on_call h Passes s with
  | (Some e, s') => Result [EvCall Passes] c s' (Raised Passes e)
  | (None, s') => Result [EvCall Passes] c s' Done
  end.

(** A call [r] followed by the rest of the script. *)
Definition then_call (r : request) (c : config) (s : S)
    (rest : S → result S E) : result S E :=
  match on_call h r s with
  | (Some e, s') => Result [EvCall r] c s' (Raised r e)
  | (None, s') => logged (EvCall r) (rest s')
  end.
End Steps.

(** ** Sample drivers and environments *)

(** A driver that refuses scenario registration and accepts everything
    else. *)
Definition refusing : harness unit string :=
  Harness (λ r s,
    match r with
    | Scenarios _ => (Some "scenario not enabled", s)
    | _ => (None, s)
    end).

(** A driver whose compile step fails and whose other methods
    return. *)
Definition failing_compile : harness unit string :=
  Harness (λ r s,
    match r with
    | Compile _ => (Some "compile failed", s)
    | _ => (None, s)
    end).

(** The actions of lines 12-20 in program order, for the attribute
    values [c]: what a run does when no call raises. *)
Definition program_order (c : config) : list event :=
  EvCall (Scenarios ["simulator"]) :: EvGet vlt_all ::
  (if cfg_vlt_all c
   then [EvGet golden_filename; EvCall (Lint true (cfg_golden_filename c))]
   else [EvCall (Compile {[ "nc_flags2" := ["-coverage"; "functional"] ]});
         EvCall Execute])
  ++ [EvCall Passes].

Module Samples.
Import Spec.

(** The lint step fails, as the descriptor expects, with the text of
    the golden reference. *)
Definition lint_fails_as_expected : env := {|
  mode_flag := true;
  recognised := ["simulator"];
  reference := λ _, "%Error-UNSUPPORTED: coverpoint";
  lint_exit_ok := false;
  lint_output := "%Error-UNSUPPORTED: coverpoint";
  compile_ok := true;
  execute_exit_ok := true;
|}.

(** The same text and the same reference, but the lint step exits
    successfully. *)
Definition lint_succeeds : env := {|
  mode_flag := true;
  recognised := ["simulator"];
  reference := λ _, "%Error-UNSUPPORTED: coverpoint";
  lint_exit_ok := true;
  lint_output := "%Error-UNSUPPORTED: coverpoint";
  compile_ok := true;
  execute_exit_ok := true;
|}.

(** Normal mode, and the compile step fails. *)
Definition compile_fails : env := {|
  mode_flag := false;
  recognised := ["simulator"];
  reference := λ _, "";
  lint_exit_ok := false;
  lint_output := "";
  compile_ok := false;
  execute_exit_ok := true;
|}.

(** Normal mode, every step succeeds. *)
Definition all_good : env := {|
  mode_flag := false;
  recognised := ["simulator"];
  reference := λ _, "";
  lint_exit_ok := false;
  lint_output := "";
  compile_ok := true;
  execute_exit_ok := true;
|}.
End Samples.

(** * Properties *)

(** ** The unfolding of a run *)

Section Unfolding.
Context {S E : Type} (h : harness S E).

Lemma run_descriptor c s :
  run h t_covergroup_coverpoints_unsup c s =
  then_call h the_scenarios c s (λ s1,
    logged (EvGet vlt_all)
      (if cfg_vlt_all c then
         logged (EvGet golden_filename)
           (then_call h (Lint true (cfg_golden_filename c)) c s1 (closing h c))
       else
         then_call h the_compile c s1 (λ s2,
           then_call h Execute c s2 (closing h c)))).
Proof.
  unfold then_call, closing, the_scenarios, the_compile; cbn.
  destruct (on_call h _ s) as [[e|] s1]; [reflexivity|].
  destruct (cfg_vlt_all c); cbn.
  - destruct (on_call h _ s1) as [[e|] s2]; [reflexivity|]; cbn.
    destruct (on_call h _ s2) as [[e|] s3]; reflexivity.
  - destruct (on_call h _ s1) as [[e|] s2]; [reflexivity|]; cbn.
    destruct (on_call h _ s2) as [[e|] s3]; [reflexivity|]; cbn.
    destruct (on_call h _ s3) as [[e|] s4]; reflexivity.
Qed.
End Unfolding.

(** Case analysis on a run of the descriptor: on the flag and on what
    the driver answers to each call. *)
Ltac run_cases :=
  rewrite run_descriptor; unfold then_call, closing, returns in *;
  match goal with c : config |- _ => destruct c as [[] ?] end;
  cbn in *;
  repeat match goal with
    | |- context [on_call ?h ?r ?s] =>
        let e := fresh "e" in let s' := fresh "s" in
        destruct (on_call h r s) as [[e|] s'] eqn:?
    end;
  cbn in *.

(** Case analysis on a membership in an explicit list of calls. *)
Ltac in_calls H :=
  unfold the_scenarios, the_compile in H;
  rewrite ?elem_of_cons, ?elem_of_nil in H;
  repeat match type of H with _ ∨ _ => destruct H as [H|H] end;
  try discriminate H; try contradiction.

Lemma flag_map_the_compile :
  flag_map {[ "nc_flags2" := ["-coverage"; "functional"] ]}
  = {[ "nc" := ["-coverage"; "functional"] ]}.
Proof. unfold flag_map. rewrite map_to_list_singleton. reflexivity. Qed.

(** ** The descriptor against an arbitrary driver *)

Section Descriptor.
Context {S E : Type} (h : harness S E).
Implicit Types (c : config) (s : S).

(** In no run do both branches execute. *)
Lemma never_both_branches c s :
  let t := trace (run h t_covergroup_coverpoints_unsup c s) in
  lint_branch_ran t && compile_branch_ran t = false.
Proof. run_cases; done. Qed.

(** The calls of any run are an initial segment of the calls of the
    run in which every call returns. *)
Lemma calls_prefix c s :
  calls (trace (run h t_covergroup_coverpoints_unsup c s))
  `prefix_of`
  calls (trace (run recording t_covergroup_coverpoints_unsup c ())).
Proof.
  rewrite (run_descriptor recording). run_cases.
  all: repeat (apply prefix_cons; try done).
  all: apply prefix_nil.
Qed.

(** A run that is not aborted makes all of them. *)
Lemma calls_complete c s :
  aborted (out (run h t_covergroup_coverpoints_unsup c s)) = false →
  calls (trace (run h t_covergroup_coverpoints_unsup c s))
  = calls (trace (run recording t_covergroup_coverpoints_unsup c ())).
Proof. rewrite (run_descriptor recording). run_cases; done. Qed.

(** A lint request carries the value of [test.golden_filename]. *)
Lemma lint_request_args c s fails f :
  Lint fails f ∈ calls (trace (run h t_covergroup_coverpoints_unsup c s)) →
  fails = true ∧ f = cfg_golden_filename c.
Proof. run_cases; intros H; in_calls H; by simplify_eq. Qed.

(** A compile request carries the keyword arguments of line 17. *)
Lemma compile_request_kwargs c s kw :
  Compile kw ∈ calls (trace (run h t_covergroup_coverpoints_unsup c s)) →
  kw = {[ "nc_flags2" := ["-coverage"; "functional"] ]}.
Proof. run_cases; intros H; in_calls H; by simplify_eq. Qed.

(** C1.  For either value of [vlt_all], a run in which scenario
    registration (line 12) returns executes exactly one of the two
    branches of line 14: the lint branch when the flag is true, the
    compile-and-execute branch when it is false; never both, never
    neither. *)
Theorem exactly_one_branch c s :
  returns h the_scenarios s →
  let t := trace (run h t_covergroup_coverpoints_unsup c s) in
  xorb (lint_branch_ran t) (compile_branch_ran t) = true
  ∧ lint_branch_ran t = cfg_vlt_all c
  ∧ compile_branch_ran t = negb (cfg_vlt_all c).
Proof. intros Hret. run_cases; done. Qed.

(** C2.  When [vlt_all] is true and scenario registration returns,
    the descriptor makes exactly one lint request, with [fails=True]
    and [expect_filename] the golden filename, and no compile and no
    execute request. *)
Theorem lint_all_requests c s :
  cfg_vlt_all c = true →
  returns h the_scenarios s →
  let t := trace (run h t_covergroup_coverpoints_unsup c s) in
  List.filter is_lint (calls t) = [Lint true (cfg_golden_filename c)]
  ∧ count is_lint t = 1
  ∧ count is_compile t = 0
  ∧ count is_execute t = 0.
Proof. intros Hflag Hret. run_cases; done. Qed.

(** C3.  When [vlt_all] is false and the driver does not abort the
    run, the calls after scenario registration are exactly: one
    compile request with the keyword [nc_flags2], that is with the
    flag map nc to [-coverage functional], then one execute request,
    then [passes()]. *)
Theorem normal_mode_requests c s :
  cfg_vlt_all c = false →
  aborted (out (run h t_covergroup_coverpoints_unsup c s)) = false →
  calls (trace (run h t_covergroup_coverpoints_unsup c s))
  = [Scenarios ["simulator"];
     Compile {[ "nc_flags2" := ["-coverage"; "functional"] ]};
     Execute; Passes]
  ∧ flag_map {[ "nc_flags2" := ["-coverage"; "functional"] ]}
    = {[ "nc" := ["-coverage"; "functional"] ]}
  ∧ count is_compile (trace (run h t_covergroup_coverpoints_unsup c s)) = 1
  ∧ count is_execute (trace (run h t_covergroup_coverpoints_unsup c s)) = 1.
Proof.
  intros Hflag. run_cases; try done.
  all: intros _; split; [reflexivity|].
  all: split; [apply flag_map_the_compile|done].
Qed.

(** C4.  A compile request of the descriptor names one backend, nc,
    in its flag map, with the flags [-coverage functional]; for every
    other backend it carries no extra flags. *)
Theorem compile_flags_only_for_nc c s kw :
  Compile kw ∈ calls (trace (run h t_covergroup_coverpoints_unsup c s)) →
  flag_map kw = {[ "nc" := ["-coverage"; "functional"] ]}
  ∧ extra_flags "nc" kw = ["-coverage"; "functional"]
  ∧ ∀ backend, backend ≠ "nc" → extra_flags backend kw = [].
Proof.
  intros ->%compile_request_kwargs. unfold extra_flags.
  rewrite flag_map_the_compile. split; [done|]. split; [done|].
  intros backend Hne. by rewrite lookup_singleton_ne.
Qed.

(** C5.  [passes()] is called if and only if no earlier call raised.
    When an earlier call (scenarios, lint, compile or execute) aborts
    the run, [passes()] is not called and the case is not recorded as
    passed. *)
Theorem passes_iff_not_aborted c s :
  let r := run h t_covergroup_coverpoints_unsup c s in
  (Passes ∈ calls (trace r) ↔ aborted (out r) = false)
  ∧ (aborted (out r) = true →
     (Passes ∉ calls (trace r)) ∧ recorded_as_passed r = false).
Proof.
  run_cases; unfold recorded_as_passed; cbn; rewrite ?andb_false_r.
  all: repeat match goal with
         | |- _ ∧ _ => split
         | |- _ ↔ _ => split
         | |- _ ∉ _ => intros ?
         | |- _ → _ => intros ?
         | H : _ ∈ _ |- _ => in_calls H
         end.
  all: try done.
  all: repeat first [apply list_elem_of_here | apply list_elem_of_further].
Qed.

(** C8.  The descriptor reads [vlt_all] and never assigns it: no
    assignment occurs in any run, and the flag (the whole
    configuration, in fact) is after the run what it was before. *)
Theorem vlt_all_not_mutated c s :
  let r := run h t_covergroup_coverpoints_unsup c s in
  cfg_vlt_all (final_cfg r) = cfg_vlt_all c
  ∧ final_cfg r = c
  ∧ ∀ a, EvSet a ∉ trace r.
Proof.
  run_cases.
  all: split; [done|]; split; [done|].
  all: intros a H; in_calls H.
Qed.

(** C10.  In every run the first action is the call
    [scenarios('simulator')]; when it returns, the read of [vlt_all]
    comes next, so nothing of either branch and no [passes()]
    precedes it.  With [vlt_all] true, a run that the driver does not
    abort makes exactly the calls scenarios, lint (expecting failure,
    against the golden filename), passes. *)
Theorem scenarios_first_lint_path_ends_with_passes c s :
  let r := run h t_covergroup_coverpoints_unsup c s in
  take 1 (trace r) = [EvCall (Scenarios ["simulator"])]
  ∧ (returns h the_scenarios s →
     take 2 (trace r) = [EvCall (Scenarios ["simulator"]); EvGet vlt_all])
  ∧ (cfg_vlt_all c = true → aborted (out r) = false →
     calls (trace r)
     = [Scenarios ["simulator"]; Lint true (cfg_golden_filename c); Passes]).
Proof. run_cases; done. Qed.

End Descriptor.

(** ** The golden reference *)

Lemma golden_filename_of_this_file :
  golden_filename_of py_filename = "t_covergroup_coverpoints_unsup.out".
Proof. reflexivity. Qed.

(** C9.  Whatever the driver does, a lint request of the descriptor
    has for [expect_filename] the golden filename the driver derives
    for this file: the file's own name with [.out] for [.py], that is
    [t_covergroup_coverpoints_unsup.out]. *)
Theorem lint_expects_golden_filename {S E} (h : harness S E) flag s fails f :
  Lint fails f
    ∈ calls (trace (run h t_covergroup_coverpoints_unsup (harness_config flag) s)) →
  f = cfg_golden_filename (harness_config flag)
  ∧ f = golden_filename_of py_filename
  ∧ f = "t_covergroup_coverpoints_unsup.out".
Proof. intros [_ ->]%lint_request_args. done. Qed.

(** ** The descriptor against the driver of the specification *)

Section AgainstSpec.
Import Spec.

(** What [exec] computes, step by step. *)
Lemma exec_unfold e :
  exec e =
  then_call (driver e) the_scenarios (harness_config (mode_flag e)) init (λ s1,
    logged (EvGet vlt_all)
      (if mode_flag e then
         logged (EvGet golden_filename)
           (then_call (driver e) (Lint true (golden_filename_of py_filename))
              (harness_config (mode_flag e)) s1
              (closing (driver e) (harness_config (mode_flag e))))
       else
         then_call (driver e) the_compile (harness_config (mode_flag e)) s1 (λ s2,
           then_call (driver e) Execute (harness_config (mode_flag e)) s2
             (closing (driver e) (harness_config (mode_flag e)))))).
Proof. unfold exec. by rewrite run_descriptor. Qed.

(** C6.  When the lint branch executes (the request it makes has
    [fails=True]) and the lint step exits successfully, the run ends
    in a TestFailure raised by the lint call, [passes()] is not
    called, and the case is not recorded as passed. *)
Theorem successful_lint_is_test_failure e :
  lint_branch_ran (trace (exec e)) = true →
  lint_exit_ok e = true →
  out (exec e) = Raised (Lint true (golden_filename_of py_filename)) TestFailure
  ∧ count is_passes (trace (exec e)) = 0
  ∧ recorded_as_passed (exec e) = false.
Proof.
  rewrite exec_unfold. unfold then_call, closing, recorded_as_passed.
  destruct e as [flag rec ref lint_ok lint_out comp_ok exec_ok]; cbn.
  intros Hran ->. revert Hran.
  destruct (bool_decide ("simulator" ∈ rec)), flag, comp_ok, exec_ok; cbn; done.
Qed.


End AgainstSpec.

(** ** Instances *)

Lemma exactly_one_branch_witness :
  returns recording the_scenarios ()
  ∧ let t := trace (run recording t_covergroup_coverpoints_unsup
                      (Config true "t_covergroup_coverpoints_unsup.out") ()) in
    xorb (lint_branch_ran t) (compile_branch_ran t) = true
    ∧ lint_branch_ran t = true
    ∧ compile_branch_ran t = negb true.
Proof.
  split; [reflexivity|].
  apply (exactly_one_branch recording
           (Config true "t_covergroup_coverpoints_unsup.out") ()).
  reflexivity.
Defined.

Lemma lint_all_requests_witness :
  returns recording the_scenarios ()
  ∧ let t := trace (run recording t_covergroup_coverpoints_unsup
                      (Config true "t_covergroup_coverpoints_unsup.out") ()) in
    List.filter is_lint (calls t)
    = [Lint true "t_covergroup_coverpoints_unsup.out"]
    ∧ count is_lint t = 1
    ∧ count is_compile t = 0
    ∧ count is_execute t = 0.
Proof.
  split; [reflexivity|].
  apply (lint_all_requests recording
           (Config true "t_covergroup_coverpoints_unsup.out") ());
    reflexivity.
Defined.

Lemma normal_mode_requests_witness :
  aborted (out (run recording t_covergroup_coverpoints_unsup
                  (Config false "t_covergroup_coverpoints_unsup.out") ())) = false
  ∧ calls (trace (run recording t_covergroup_coverpoints_unsup
                    (Config false "t_covergroup_coverpoints_unsup.out") ()))
    = [Scenarios ["simulator"];
       Compile {[ "nc_flags2" := ["-coverage"; "functional"] ]};
       Execute; Passes].
Proof.
  split; [reflexivity|].
  apply (normal_mode_requests recording
           (Config false "t_covergroup_coverpoints_unsup.out") ());
    reflexivity.
Defined.

Lemma compile_flags_only_for_nc_witness :
  extra_flags "nc" {[ "nc_flags2" := ["-coverage"; "functional"] ]}
  = ["-coverage"; "functional"]
  ∧ extra_flags "vlt" {[ "nc_flags2" := ["-coverage"; "functional"] ]} = [].
Proof.
  destruct (compile_flags_only_for_nc recording (harness_config false) ()
              {[ "nc_flags2" := ["-coverage"; "functional"] ]})
    as (_ & Hnc & Hother).
  - cbn. apply list_elem_of_further, list_elem_of_here.
  - split; [exact Hnc|]. apply Hother. discriminate.
Defined.

Lemma successful_lint_is_test_failure_witness :
  lint_branch_ran (trace (Spec.exec Samples.lint_succeeds)) = true
  ∧ Spec.lint_exit_ok Samples.lint_succeeds = true
  ∧ out (Spec.exec Samples.lint_succeeds)
    = Raised (Lint true (golden_filename_of py_filename)) Spec.TestFailure
  ∧ count is_passes (trace (Spec.exec Samples.lint_succeeds)) = 0
  ∧ recorded_as_passed (Spec.exec Samples.lint_succeeds) = false.
Proof.
  split; [reflexivity|]. split; [reflexivity|].
  apply (successful_lint_is_test_failure Samples.lint_succeeds); reflexivity.
Defined.

Lemma lint_expects_golden_filename_witness :
  Lint true "t_covergroup_coverpoints_unsup.out"
    ∈ calls (trace (run recording t_covergroup_coverpoints_unsup
                      (harness_config true) ()))
  ∧ golden_filename_of py_filename = "t_covergroup_coverpoints_unsup.out".
Proof.
  assert (Lint true "t_covergroup_coverpoints_unsup.out"
            ∈ calls (trace (run recording t_covergroup_coverpoints_unsup
                              (harness_config true) ()))) as Hin
    by (cbn; apply list_elem_of_further, list_elem_of_here).
  split; [exact Hin|].
  destruct (lint_expects_golden_filename recording true () true _ Hin)
    as (_ & H1 & H2).
  congruence.
Defined.

(** ** Sample runs *)

(** A driver that refuses scenario registration ends the script on
    line 12: no branch executes and [passes()] is not called. *)
Example refused_run :
  run refusing t_covergroup_coverpoints_unsup (Config true "g.out") ()
  = Result [EvCall (Scenarios ["simulator"])] (Config true "g.out") ()
      (Raised (Scenarios ["simulator"]) "scenario not enabled").
Proof. reflexivity. Qed.

Example lint_all_trace :
  trace (run recording t_covergroup_coverpoints_unsup (Config true "g.out") ())
  = [EvCall (Scenarios ["simulator"]); EvGet vlt_all; EvGet golden_filename;
     EvCall (Lint true "g.out"); EvCall Passes].
Proof. reflexivity. Qed.

Example normal_trace :
  trace (run recording t_covergroup_coverpoints_unsup (Config false "g.out") ())
  = [EvCall (Scenarios ["simulator"]); EvGet vlt_all;
     EvCall (Compile {[ "nc_flags2" := ["-coverage"; "functional"] ]});
     EvCall Execute; EvCall Passes].
Proof. reflexivity. Qed.

Example compile_failure_run :
  calls (trace (Spec.exec Samples.compile_fails))
  = [Scenarios ["simulator"];
     Compile {[ "nc_flags2" := ["-coverage"; "functional"] ]}]
  ∧ out (Spec.exec Samples.compile_fails)
    = Raised (Compile {[ "nc_flags2" := ["-coverage"; "functional"] ]})
        Spec.CompileError
  ∧ recorded_as_passed (Spec.exec Samples.compile_fails) = false.
Proof. repeat split; reflexivity. Qed.

(** The lint step fails, as the descriptor asks, with the text of the
    golden reference: the run completes. *)
Example expected_lint_failure_run :
  calls (trace (Spec.exec Samples.lint_fails_as_expected))
  = [Scenarios ["simulator"]; Lint true "t_covergroup_coverpoints_unsup.out";
     Passes]
  ∧ out (Spec.exec Samples.lint_fails_as_expected) = Done.
Proof. split; reflexivity. Qed.

Example all_good_run :
  out (Spec.exec Samples.all_good) = Done
  ∧ recorded_as_passed (Spec.exec Samples.all_good) = true.
Proof. split; reflexivity. Qed.


(** ** Order and early exits *)

Section Order.
Context {S E : Type} (h : harness S E).
Implicit Types (c : config) (s : S).

(** X1.  Whatever the driver answers, the actions of a run are an
    initial segment of the program order: the script never reorders,
    repeats or adds an action, and it reads [golden_filename] only
    with [vlt_all] true.  A run that ends normally has performed all
    of them. *)
Theorem trace_initial_segment c s :
  trace (run h t_covergroup_coverpoints_unsup c s) `prefix_of` program_order c
  ∧ (out (run h t_covergroup_coverpoints_unsup c s) = Done →
     trace (run h t_covergroup_coverpoints_unsup c s) = program_order c).
Proof.
  run_cases; unfold program_order, the_scenarios, the_compile; cbn.
  all: split; [|done].
  all: repeat (apply prefix_cons); try apply prefix_nil; done.
Qed.

(** X2.  When the compile request of line 17 raises, the run ends
    there: execute and [passes()] are not requested, the outcome
    names the compile call and its exception, and the driver is left
    in the state compile left it in. *)
Theorem failed_compile_ends_run c s s1 s2 e :
  cfg_vlt_all c = false →
  on_call h the_scenarios s = (None, s1) →
  on_call h the_compile s1 = (Some e, s2) →
  run h t_covergroup_coverpoints_unsup c s
  = Result [EvCall the_scenarios; EvGet vlt_all; EvCall the_compile]
      c s2 (Raised the_compile e)
  ∧ count is_execute (trace (run h t_covergroup_coverpoints_unsup c s)) = 0
  ∧ count is_passes (trace (run h t_covergroup_coverpoints_unsup c s)) = 0.
Proof.
  intros Hflag Hscen Hcomp.
  rewrite run_descriptor. unfold then_call.
  rewrite Hscen, Hflag, Hcomp. done.
Qed.

(** X3.  A call that raises is the last action of the run, and it
    was made once: the script does nothing after an exception. *)
Theorem raising_call_is_last c s r0 e :
  out (run h t_covergroup_coverpoints_unsup c s) = Raised r0 e →
  last (trace (run h t_covergroup_coverpoints_unsup c s)) = Some (EvCall r0)
  ∧ length (List.filter (λ r, bool_decide (r = r0))
              (calls (trace (run h t_covergroup_coverpoints_unsup c s)))) = 1.
Proof.
  run_cases; intros Hout; simplify_eq; cbn.
  all: unfold the_scenarios, the_compile; split; [done|].
  all: repeat case_bool_decide; by simplify_eq.
Qed.

End Order.

Lemma failed_compile_ends_run_witness :
  cfg_vlt_all (Config false "t_covergroup_coverpoints_unsup.out") = false
  ∧ on_call failing_compile the_scenarios () = (None, ())
  ∧ on_call failing_compile the_compile () = (Some "compile failed", ())
  ∧ count is_execute
      (trace (run failing_compile t_covergroup_coverpoints_unsup
                (Config false "t_covergroup_coverpoints_unsup.out") ())) = 0.
Proof.
  split; [reflexivity|]. split; [reflexivity|]. split; [reflexivity|].
  apply (failed_compile_ends_run failing_compile
           (Config false "t_covergroup_coverpoints_unsup.out") () () ()
           "compile failed"); reflexivity.
Defined.

Lemma raising_call_is_last_witness :
  out (run refusing t_covergroup_coverpoints_unsup (Config true "g.out") ())
  = Raised (Scenarios ["simulator"]) "scenario not enabled"
  ∧ last (trace (run refusing t_covergroup_coverpoints_unsup
                   (Config true "g.out") ()))
    = Some (EvCall (Scenarios ["simulator"])).
Proof.
  split; [reflexivity|].
  apply (raising_call_is_last refusing (Config true "g.out") ()
           (Scenarios ["simulator"]) "scenario not enabled").
  reflexivity.
Defined.
